(** * Slack notification provider: configuration validation, timezone
      resolution and local-time formatting

    A shallow embedding of [server/notification-providers/slack.js]:
    the leveled logger, [validateNotificationConfig],
    [getAllInformationFromTimezone] and the three formatters
    [formatDay], [formatDate] and [formatTime], followed by the
    properties of these functions.

    Strings are sequences of bytes (UTF-8), which is exact for the
    comparisons the program performs. *)

From Stdlib Require Import ZArith String Ascii Floats.
From stdpp Require Import gmap strings list fin_maps.

Set Warnings "-register-all".
Local Open Scope string_scope.

(** ** JavaScript values *)

(** The values a configuration field or a formatter argument can hold:
    the JSON values, [undefined], and the built-in functions and objects
    reached through [Object.prototype]. Numbers are IEEE 754 doubles. *)
Inductive value : Type :=
| VUndefined
| VNull
| VBool (b : bool)
| VNum (x : float)
| VStr (s : string)
| VArr (elems : list value)
| VObj (props : gmap string value)
| VBuiltin (name : string).

(** [!v]: true on [undefined], [null], [false], [0], [-0], [NaN] and
    the empty string; every object, array and function is truthy. *)
Definition js_not (v : value) : bool :=
  match v with
  | VUndefined | VNull => true
  | VBool b => negb b
  | VNum x => PrimFloat.eqb x 0%float || negb (PrimFloat.eqb x x)
  | VStr s => match s with EmptyString => true | String _ _ => false end
  | VArr _ | VObj _ | VBuiltin _ => false
  end.

(** ** Property reads on plain objects *)

(** The own properties of [Object.prototype], which every object
    literal inherits. *)
Definition Object_prototype : list string :=
  [ "constructor"; "__defineGetter__"; "__defineSetter__"; "hasOwnProperty";
    "__lookupGetter__"; "__lookupSetter__"; "isPrototypeOf";
    "propertyIsEnumerable"; "toString"; "valueOf"; "__proto__";
    "toLocaleString" ].

(** The result of [o[k]] on an object literal [o] whose own properties
    hold values of type [A]: an own property, a member inherited from
    [Object.prototype] (a function, or the prototype object itself for
    ["__proto__"]), or [undefined]. *)
Inductive property (A : Type) : Type :=
| Own (a : A)
| Inherited (name : string)
| Missing.
Arguments Own {A} a.
Arguments Inherited {A} name.
Arguments Missing {A}.

Definition read {A : Type} (o : gmap string A) (k : string) : property A :=
  match o !! k with
  | Some a => Own a
  | None => if bool_decide (k ∈ Object_prototype) then Inherited k else Missing
  end.

(** [o[k]] as a value, for an object whose properties are values. *)
Definition read_value (o : gmap string value) (k : string) : value :=
  match read o k with
  | Own v => v
  | Inherited name => VBuiltin name
  | Missing => VUndefined
  end.

(** ** Effects: exceptions, the console, the object under validation *)

Inductive exn : Type :=
| Error (message : string)
| TypeError
| RangeError.

Inductive outcome (A : Type) : Type :=
| Return (a : A)
| Throw (e : exn).
Arguments Return {A} a.
Arguments Throw {A} e.

(** A computation over a state [S] that returns or throws; the state
    reached is kept in both cases. *)
Definition M (S A : Type) : Type := S → outcome A * S.

#[global] Instance M_ret {S} : MRet (M S) := λ A a s, (Return a, s).
#[global] Instance M_bind {S} : MBind (M S) := λ A B k m s,
  match m s with
  | (Return a, s') => k a s'
  | (Throw e, s') => (Throw e, s')
  end.

Definition throw {S A} (e : exn) : M S A := λ s, (Throw e, s).
Definition modify {S} (f : S → S) : M S unit := λ s, (Return tt, f s).
Definition gets {S A} (f : S → A) : M S A := λ s, (Return (f s), s).

(** [if (c) { body }] with no [else]. *)
Definition when {S} (c : bool) (body : M S unit) : M S unit :=
  if c then body else mret tt.

(** [xs.forEach(f)]: the callback runs on each element in order; an
    exception thrown by the callback leaves the loop. *)
Fixpoint forEach {S A} (xs : list A) (f : A → M S unit) : M S unit :=
  match xs with
  | [] => mret tt
  | x :: rest => f x ;; forEach rest f
  end.

(** One call of [console.log] by [logMessage]: the level, the message
    and the additional information ([null] when there is none). The
    rendered line adds the current time, the script name and colour
    codes around these three. *)
Record log_record : Type := LogRecord {
  log_level : string;
  log_message : string;
  log_additionalInfo : value
}.

Definition console : Type := list log_record.

(** The state [validateNotificationConfig] runs in: the object its
    parameter [notification] refers to, and the console. *)
Record validation_state : Type := ValidationState {
  notification : gmap string value;
  output : console
}.

Class Logging (S : Type) : Type := console_log : log_record → S → S.
#[global] Instance console_logging : Logging console := λ r out, (out ++ [r])%list.
#[global] Instance validation_logging : Logging validation_state := λ r st,
  {| notification := notification st; output := (output st ++ [r])%list |}.

(** ** The leveled logger *)

Record log_levels : Type := LogLevels {
  debug : bool;
  info : bool;
  warn : bool;
  error : bool;
  compactLogs : bool
}.

Definition logLevelsEnabled : log_levels :=
  {| debug := false; info := true; warn := true; error := true;
     compactLogs := true |}.

Section Logger.
Context (levels : log_levels) {S : Type} `{!Logging S}.

Definition logMessage (logLevel message : string) (additionalInfo : value)
  : M S unit :=
  modify (console_log (LogRecord logLevel message additionalInfo)).

Definition completeLogDebug (message : string) (additionalInfo : value)
  : M S unit :=
  when (debug levels) (logMessage "DEBUG" message additionalInfo).

Definition completeLogInfo (message : string) (additionalInfo : value)
  : M S unit :=
  when (info levels) (logMessage "INFO" message additionalInfo).

Definition completeLogWarn (message : string) (additionalInfo : value)
  : M S unit :=
  when (warn levels) (logMessage "WARN" message additionalInfo).

Definition completeLogError (message : string) (additionalInfo : value)
  : M S unit :=
  when (error levels) (logMessage "ERROR" message additionalInfo).
End Logger.

(** ** Timezone resolution *)

(** The object literal [timezoneToInfo], in source order. *)
Definition timezoneToInfo_entries : list (string * list string) := [
    (* Europe *)
    ("Europe/Amsterdam", ["Europe"; "Netherlands"; "Central European Time"]);
    ("Europe/Andorra", ["Europe"; "Andorra"; "Central European Time"]);
    ("Europe/Belgrade", ["Europe"; "Serbia"; "Central European Time"]);
    ("Europe/Berlin", ["Europe"; "Germany"; "Central European Time"]);
    ("Europe/Brussels", ["Europe"; "Belgium"; "Central European Time"]);
    ("Europe/Bucharest", ["Europe"; "Romania"; "Eastern European Time"]);
    ("Europe/Budapest", ["Europe"; "Hungary"; "Central European Time"]);
    ("Europe/Chisinau", ["Europe"; "Moldova"; "Eastern European Time"]);
    ("Europe/Copenhagen", ["Europe"; "Denmark"; "Central European Time"]);
    ("Europe/Dublin", ["Europe"; "Ireland"; "Greenwich Mean Time"]);
    ("Europe/Helsinki", ["Europe"; "Finland"; "Eastern European Time"]);
    ("Europe/Istanbul", ["Europe"; "Turkey"; "Turkey Time"]);
    ("Europe/Kiev", ["Europe"; "Ukraine"; "Eastern European Time"]);
    ("Europe/Lisbon", ["Europe"; "Portugal"; "Western European Time"]);
    ("Europe/London", ["Europe"; "United Kingdom"; "Greenwich Mean Time"]);
    ("Europe/Luxembourg", ["Europe"; "Luxembourg"; "Central European Time"]);
    ("Europe/Madrid", ["Europe"; "Spain"; "Central European Time"]);
    ("Europe/Minsk", ["Europe"; "Belarus"; "Minsk Time"]);
    ("Europe/Monaco", ["Europe"; "Monaco"; "Central European Time"]);
    ("Europe/Moscow", ["Europe"; "Russia"; "Moscow Time"]);
    ("Europe/Oslo", ["Europe"; "Norway"; "Central European Time"]);
    ("Europe/Paris", ["Europe"; "France"; "Central European Time"]);
    ("Europe/Prague", ["Europe"; "Czech Republic"; "Central European Time"]);
    ("Europe/Riga", ["Europe"; "Latvia"; "Eastern European Time"]);
    ("Europe/Rome", ["Europe"; "Italy"; "Central European Time"]);
    ("Europe/Samara", ["Europe"; "Russia"; "Samara Time"]);
    ("Europe/Sofia", ["Europe"; "Bulgaria"; "Eastern European Time"]);
    ("Europe/Stockholm", ["Europe"; "Sweden"; "Central European Time"]);
    ("Europe/Tallinn", ["Europe"; "Estonia"; "Eastern European Time"]);
    ("Europe/Tirane", ["Europe"; "Albania"; "Central European Time"]);
    ("Europe/Vaduz", ["Europe"; "Liechtenstein"; "Central European Time"]);
    ("Europe/Vienna", ["Europe"; "Austria"; "Central European Time"]);
    ("Europe/Vilnius", ["Europe"; "Lithuania"; "Eastern European Time"]);
    ("Europe/Zurich", ["Europe"; "Switzerland"; "Central European Time"]);
    (* North America *)
    ("America/Chicago", ["North America"; "United States"; "Central Standard Time"]);
    ("America/Denver", ["North America"; "United States"; "Mountain Standard Time"]);
    ("America/Detroit", ["North America"; "United States"; "Eastern Standard Time"]);
    ("America/Houston", ["North America"; "United States"; "Central Standard Time"]);
    ("America/Indianapolis", ["North America"; "United States"; "Eastern Standard Time"]);
    ("America/Los_Angeles", ["North America"; "United States"; "Pacific Standard Time"]);
    ("America/Mexico_City", ["North America"; "Mexico"; "Central Standard Time"]);
    ("America/New_York", ["North America"; "United States"; "Eastern Standard Time"]);
    ("America/Regina", ["North America"; "Canada"; "Central Standard Time"]);
    ("America/Toronto", ["North America"; "Canada"; "Eastern Standard Time"]);
    ("America/Vancouver", ["North America"; "Canada"; "Pacific Standard Time"]);
    ("America/Winnipeg", ["North America"; "Canada"; "Central Standard Time"]);
    (* South America *)
    ("America/Argentina/Buenos_Aires", ["South America"; "Argentina"; "Argentina Time"]);
    ("America/Asuncion", ["South America"; "Paraguay"; "Paraguay Time"]);
    ("America/Bahia", ["South America"; "Brazil"; "Brasilia Time"]);
    ("America/Barbados", ["South America"; "Barbados"; "Atlantic Standard Time"]);
    ("America/Belize", ["South America"; "Belize"; "Central Standard Time"]);
    ("America/Colombia", ["South America"; "Colombia"; "Colombia Time"]);
    ("America/Curacao", ["South America"; "Curacao"; "Atlantic Standard Time"]);
    ("America/Guatemala", ["South America"; "Guatemala"; "Central Standard Time"]);
    ("America/Guayaquil", ["South America"; "Ecuador"; "Ecuador Time"]);
    ("America/Lima", ["South America"; "Peru"; "Peru Time"]);
    ("America/Panama", ["South America"; "Panama"; "Eastern Standard Time"]);
    ("America/Port_of_Spain", ["South America"; "Trinidad and Tobago"; "Atlantic Standard Time"]);
    ("America/Santiago", ["South America"; "Chile"; "Chile Standard Time"]);
    ("America/Sao_Paulo", ["South America"; "Brazil"; "Brasilia Time"]);
    (* Asia *)
    ("Asia/Amman", ["Asia"; "Jordan"; "Jordan Time"]);
    ("Asia/Baghdad", ["Asia"; "Iraq"; "Arabian Standard Time"]);
    ("Asia/Bahrain", ["Asia"; "Bahrain"; "Arabian Standard Time"]);
    ("Asia/Bangkok", ["Asia"; "Thailand"; "Indochina Time"]);
    ("Asia/Beirut", ["Asia"; "Lebanon"; "Eastern European Time"]);
    ("Asia/Dhaka", ["Asia"; "Bangladesh"; "Bangladesh Standard Time"]);
    ("Asia/Dubai", ["Asia"; "UAE"; "Gulf Standard Time"]);
    ("Asia/Hong_Kong", ["Asia"; "Hong Kong"; "Hong Kong Time"]);
    ("Asia/Irkutsk", ["Asia"; "Russia"; "Irkutsk Time"]);
    ("Asia/Jakarta", ["Asia"; "Indonesia"; "Western Indonesia Time"]);
    ("Asia/Kolkata", ["Asia"; "India"; "Indian Standard Time"]);
    ("Asia/Kuala_Lumpur", ["Asia"; "Malaysia"; "Malaysia Time"]);
    ("Asia/Kuwait", ["Asia"; "Kuwait"; "Arabian Standard Time"]);
    ("Asia/Makassar", ["Asia"; "Indonesia"; "Central Indonesia Time"]);
    ("Asia/Manila", ["Asia"; "Philippines"; "Philippine Time"]);
    ("Asia/Muscat", ["Asia"; "Oman"; "Gulf Standard Time"]);
    ("Asia/Novosibirsk", ["Asia"; "Russia"; "Novosibirsk Time"]);
    ("Asia/Seoul", ["Asia"; "South Korea"; "Korea Standard Time"]);
    ("Asia/Singapore", ["Asia"; "Singapore"; "Singapore Time"]);
    ("Asia/Taipei", ["Asia"; "Taiwan"; "Taipei Standard Time"]);
    ("Asia/Tashkent", ["Asia"; "Uzbekistan"; "Uzbekistan Time"]);
    ("Asia/Tokyo", ["Asia"; "Japan"; "Japan Standard Time"]);
    ("Asia/Ulaanbaatar", ["Asia"; "Mongolia"; "Ulaanbaatar Time"]);
    ("Asia/Yangon", ["Asia"; "Myanmar"; "Myanmar Time"]);
    (* Australia *)
    ("Australia/Adelaide", ["Australia"; "Australia"; "Australian Central Standard Time"]);
    ("Australia/Brisbane", ["Australia"; "Australia"; "Australian Eastern Standard Time"]);
    ("Australia/Darwin", ["Australia"; "Australia"; "Australian Central Standard Time"]);
    ("Australia/Hobart", ["Australia"; "Australia"; "Australian Eastern Daylight Time"]);
    ("Australia/Melbourne", ["Australia"; "Australia"; "Australian Eastern Daylight Time"]);
    ("Australia/Sydney", ["Australia"; "Australia"; "Australian Eastern Daylight Time"]);
    (* Africa *)
    ("Africa/Addis_Ababa", ["Africa"; "Ethiopia"; "East Africa Time"]);
    ("Africa/Cairo", ["Africa"; "Egypt"; "Eastern European Time"]);
    ("Africa/Casablanca", ["Africa"; "Morocco"; "Western European Time"]);
    ("Africa/Harare", ["Africa"; "Zimbabwe"; "Central Africa Time"]);
    ("Africa/Johannesburg", ["Africa"; "South Africa"; "South Africa Standard Time"]);
    ("Africa/Khartoum", ["Africa"; "Sudan"; "Central Africa Time"]);
    ("Africa/Lagos", ["Africa"; "Nigeria"; "West Africa Time"]);
    ("Africa/Nairobi", ["Africa"; "Kenya"; "East Africa Time"]);
    ("Africa/Tripoli", ["Africa"; "Libya"; "Eastern European Time"]);
    (* Middle East *)
    ("Asia/Tehran", ["Asia"; "Iran"; "Iran Standard Time"]);
    ("Asia/Qatar", ["Asia"; "Qatar"; "Arabian Standard Time"]);
    ("Asia/Jerusalem", ["Asia"; "Israel"; "Israel Standard Time"]);
    ("Asia/Riyadh", ["Asia"; "Saudi Arabia"; "Arabian Standard Time"]);
    (* Pacific *)
    ("Pacific/Auckland", ["Pacific"; "New Zealand"; "New Zealand Standard Time"]);
    ("Pacific/Fiji", ["Pacific"; "Fiji"; "Fiji Time"]);
    ("Pacific/Guam", ["Pacific"; "Guam"; "Chamorro Standard Time"]);
    ("Pacific/Honolulu", ["Pacific"; "Hawaii"; "Hawaii-Aleutian Standard Time"]);
    ("Pacific/Pago_Pago", ["Pacific"; "American Samoa"; "Samoa Standard Time"]);
    ("Pacific/Port_Moresby", ["Pacific"; "Papua New Guinea"; "Papua New Guinea Time"]);
    ("Pacific/Suva", ["Pacific"; "Fiji"; "Fiji Time"]);
    ("Pacific/Tarawa", ["Pacific"; "Kiribati"; "Gilbert Island Time"]);
    ("Pacific/Wellington", ["Pacific"; "New Zealand"; "New Zealand Standard Time"]);
    (* Other regions *)
    ("Antarctica/Palmer", ["Other"; "Antarctica"; "Chile Summer Time"]);
    ("Antarctica/Vostok", ["Other"; "Antarctica"; "Vostok Time"]);
    ("Indian/Chagos", ["Other"; "British Indian Ocean Territory"; "Indian Ocean Territory Time"]);
    ("Indian/Mauritius", ["Other"; "Mauritius"; "Mauritius Time"]);
    ("Indian/Reunion", ["Other"; "Réunion"; "Réunion Time"]);
    ("Indian/Christmas", ["Other"; "Australia"; "Australia Western Standard Time"]);
    ("Indian/Kerguelen", ["Other"; "France"; "French Southern and Antarctic Time"]);
    ("Indian/Maldives", ["Other"; "Maldives"; "Maldives Time"]);
    ("Indian/Seychelles", ["Other"; "Seychelles"; "Seychelles Time"])
  ].

Definition timezoneToInfo : gmap string (list string) :=
  list_to_map timezoneToInfo_entries.

Record timezone_info : Type := TimezoneInfo {
  continent : option string;
  country : option string;
  localTimezone : option string
}.

(** [p ?? []] *)
Definition or_empty_array (p : property (list string)) : property (list string) :=
  match p with
  | Missing => Own []
  | _ => p
  end.

(** [const [ a = null, b = null, c = null ] = p]: an array is read by
    position, [None] standing for the default [null] of an absent
    element; a function or a plain object is not iterable. *)
Definition destructure3 {S} (p : property (list string))
  : M S (option string * option string * option string) :=
  match p with
  | Own arr => mret (arr !! 0, arr !! 1, arr !! 2)
  | Inherited _ | Missing => throw TypeError
  end.

(** [`${x}`] for a string or [null]. *)
Definition interpolate (x : option string) : string := default "null" x.

Section Resolver.
Context (levels : log_levels).

Definition getAllInformationFromTimezone (timezone : string)
  : M console timezone_info :=
  '(continent, country, localTimezone) ←
    destructure3 (or_empty_array (read timezoneToInfo timezone));
  when (debug levels)
    (completeLogDebug levels
       ("Timezone: " +:+ timezone +:+ ", Continent: " +:+ interpolate continent
        +:+ ", Country: " +:+ interpolate country
        +:+ ", Local Timezone: " +:+ interpolate localTimezone) VNull) ;;
  when (bool_decide (continent = Some "Unknown") && warn levels)
    (completeLogWarn levels
       ("Timezone not found in mappings: " +:+ timezone) VNull) ;;
  mret (TimezoneInfo continent country localTimezone).
End Resolver.

(** ** Configuration validation *)

Record required_field : Type := RequiredField {
  field : string;
  message : string
}.

Definition requiredFields : list required_field :=
  [ {| field := "slackwebhookURL";
       message := "Slack webhook URL is required for notifications." |};
    {| field := "slackchannel";
       message := "Slack channel is required for notifications." |};
    {| field := "slackusername";
       message := "Slack username is required for notifications." |} ].

(** [notification[k]] and [notification[k] = v] on the object under
    validation, a plain extensible object. *)
Definition get_field (k : string) : M validation_state value :=
  gets (λ st, read_value (notification st) k).

Definition set_field (k : string) (v : value) : M validation_state unit :=
  modify (λ st, {| notification := <[k := v]> (notification st);
                   output := output st |}).

(** An object literal [{ k1: v1, ... }]. *)
Definition object (props : list (string * value)) : value :=
  VObj (list_to_map props).

Section Validator.
Context (levels : log_levels).

Definition validateNotificationConfig : M validation_state unit :=
  n ← gets notification;
  completeLogDebug levels
    "Starting validation of Slack notification configuration"
    (object [("notification", VObj n)]) ;;
  forEach requiredFields (λ '(RequiredField field message),
    v ← get_field field;
    when (js_not v)
      (n ← gets notification;
       completeLogError levels
         "Missing required field in Slack notification configuration"
         (object [("field", VStr field); ("message", VStr message);
                  ("notification", VObj n)]) ;;
       throw (Error message))) ;;
  completeLogDebug levels
    "All required fields are present in Slack notification configuration"
    (object [("requiredFields", VArr (map (λ f, VStr (field f)) requiredFields))]) ;;
  slackiconemo ← get_field "slackiconemo";
  if js_not slackiconemo then
    set_field "slackiconemo" (VStr ":robot_face:") ;;
    icon ← get_field "slackiconemo";
    completeLogDebug levels "Default Slack icon emoji set"
      (object [("icon", icon)])
  else
    icon ← get_field "slackiconemo";
    completeLogDebug levels "Custom Slack icon emoji provided"
      (object [("icon", icon)]).
End Validator.

(** ** The date library

    [dayjs] with its [utc] and [timezone] plugins is an external
    dependency, and the zone rules come from the runtime's IANA
    database. The formatters only use the chain
    [dayjs(x).tz(zone).format(f)] (or [dayjs.utc(x)...]). It is modelled
    on the inputs described below and left to the runtime elsewhere. *)
Module Dayjs.

Local Open Scope Z_scope.

(** The fields of a wall clock. [month] counts from 1, [weekday] from
    0 for Sunday. *)
Record fields : Type := Fields {
  year : Z; month : Z; date : Z;
  hour : Z; minute : Z; second : Z;
  weekday : Z
}.

(** Days between 1970-01-01 and a date of the proleptic Gregorian
    calendar, and back. *)
Definition days_from_civil (y m d : Z) : Z :=
  let y := if m <=? 2 then y - 1 else y in
  let era := y / 400 in
  let yoe := y - era * 400 in
  let doy := (153 * (if 2 <? m then m - 3 else m + 9) + 2) / 5 + d - 1 in
  let doe := yoe * 365 + yoe / 4 - yoe / 100 + doy in
  era * 146097 + doe - 719468.

Definition civil_from_days (z : Z) : Z * Z * Z :=
  let z := z + 719468 in
  let era := z / 146097 in
  let doe := z - era * 146097 in
  let yoe := (doe - doe / 1460 + doe / 36524 - doe / 146096) / 365 in
  let doy := doe - (365 * yoe + yoe / 4 - yoe / 100) in
  let mp := (5 * doy + 2) / 153 in
  let d := doy - (153 * mp + 2) / 5 + 1 in
  let m := if mp <? 10 then mp + 3 else mp - 9 in
  let y := yoe + era * 400 in
  (if m <=? 2 then y + 1 else y, m, d).

Definition leap_year (y : Z) : bool :=
  (y mod 4 =? 0) && (negb (y mod 100 =? 0) || (y mod 400 =? 0)).

Definition days_in_month (y m : Z) : Z :=
  if m =? 2 then (if leap_year y then 29 else 28)
  else if (m =? 4) || (m =? 6) || (m =? 9) || (m =? 11) then 30
  else 31.

(** The wall clock that shows [t] seconds after 1970-01-01T00:00:00. *)
Definition fields_of_seconds (t : Z) : fields :=
  let days := t / 86400 in
  let secs := t mod 86400 in
  let '(y, m, d) := civil_from_days days in
  {| year := y; month := m; date := d;
     hour := secs / 3600; minute := secs mod 3600 / 60; second := secs mod 60;
     weekday := (days + 4) mod 7 |}.

(** *** Parsing *)

Definition digit (c : ascii) : option Z :=
  let n := Z.of_nat (nat_of_ascii c) in
  if (48 <=? n) && (n <=? 57) then Some (n - 48) else None.

Fixpoint number (acc : Z) (cs : list ascii) : option Z :=
  match cs with
  | [] => Some acc
  | c :: cs => d ← digit c; number (acc * 10 + d) cs
  end.

Definition is_char (c : ascii) (s : string) : bool :=
  bool_decide (String c EmptyString = s).

(** The instant, in seconds since the epoch, written by a string of
    the shape [YYYY-MM-DDTHH:mm:ssZ] that names a valid date and time
    of the years 1970 to 9998. Such a string ends in [Z], so the
    library hands it to the [Date] constructor, which reads this ISO
    8601 form as UTC, in both [dayjs(x)] and [dayjs.utc(x)]. *)
Definition iso_utc_seconds (s : string) : option Z :=
  match list_ascii_of_string s with
  | [y1; y2; y3; y4; c1; m1; m2; c2; d1; d2; c3; h1; h2; c4; i1; i2; c5; s1; s2; c6] =>
      if is_char c1 "-" && is_char c2 "-" && is_char c3 "T"
         && is_char c4 ":" && is_char c5 ":" && is_char c6 "Z" then
        y ← number 0 [y1; y2; y3; y4];
        m ← number 0 [m1; m2];
        d ← number 0 [d1; d2];
        h ← number 0 [h1; h2];
        i ← number 0 [i1; i2];
        sec ← number 0 [s1; s2];
        if (1970 <=? y) && (y <=? 9998) && (1 <=? m) && (m <=? 12)
           && (1 <=? d) && (d <=? days_in_month y m)
           && (h <=? 23) && (i <=? 59) && (sec <=? 59) then
          Some (days_from_civil y m d * 86400 + h * 3600 + i * 60 + sec)
        else None
      else None
  | _ => None
  end.

(** *** Formatting *)

(** The last [width] decimal digits of [n], which is [n] padded with
    zeros when it has no more than [width] digits. *)
Fixpoint decimal (width : nat) (n : Z) : string :=
  match width with
  | O => ""
  | S w => decimal w (n / 10)
           +:+ String (ascii_of_nat (48 + Z.to_nat (n mod 10))) ""
  end.

Definition monthsShort : list string :=
  [ "Jan"; "Feb"; "Mar"; "Apr"; "May"; "Jun";
    "Jul"; "Aug"; "Sep"; "Oct"; "Nov"; "Dec" ].

Definition weekdays : list string :=
  [ "Sunday"; "Monday"; "Tuesday"; "Wednesday"; "Thursday"; "Friday";
    "Saturday" ].

(** The format tokens the program uses, and [MMMM], which the
    library reads where a fourth [M] follows and which is not
    modelled. *)
Definition tokens : list (string * option (fields → string)) :=
  [ ("YYYY", Some (λ t, decimal 4 (year t)));
    ("MMMM", None);
    ("MMM", Some (λ t, default "" (monthsShort !! Z.to_nat (month t - 1))));
    ("DD", Some (λ t, decimal 2 (date t)));
    ("dddd", Some (λ t, default "" (weekdays !! Z.to_nat (weekday t))));
    ("HH", Some (λ t, decimal 2 (hour t)));
    ("mm", Some (λ t, decimal 2 (minute t)));
    ("ss", Some (λ t, decimal 2 (second t))) ].

Fixpoint strip_prefix (p s : string) : option string :=
  match p, s with
  | EmptyString, _ => Some s
  | String a p, String b s => if bool_decide (a = b) then strip_prefix p s else None
  | String _ _, EmptyString => None
  end.

Definition leading_token (s : string)
  : option (option (fields → string) * string) :=
  list_find (λ tk, is_Some (strip_prefix tk.1 s)) tokens
  ≫= λ '(_, (p, render)), rest ← strip_prefix p s; Some (render, rest).

(** A character that [format] copies as it stands: anything but a
    letter or a square bracket. *)
Definition literal (c : ascii) : bool :=
  let n := nat_of_ascii c in
  negb ((65 <=? n)%nat && (n <=? 93)%nat || (97 <=? n)%nat && (n <=? 122)%nat).

(** [format] on a format string made of the tokens above and of
    literal characters; [None] on any other format string. Every step
    consumes a character, so the length of the string is fuel
    enough. *)
Fixpoint format_from (fuel : nat) (t : fields) (f : string) : option string :=
  match fuel, f with
  | _, EmptyString => Some ""
  | O, String _ _ => None
  | S fuel, String c rest =>
      match leading_token f with
      | Some (Some render, rest') =>
          out ← format_from fuel t rest'; Some (render t +:+ out)
      | Some (None, _) => None
      | None =>
          if literal c then out ← format_from fuel t rest; Some (String c out)
          else None
      end
  end.

Definition format (t : fields) (f : string) : option string :=
  format_from (String.length f) t f.

End Dayjs.

(** What the program takes from its runtime. *)
Record runtime : Type := Runtime {
  (** the IANA database: the offset from UTC, in seconds, that a zone
      observes at an instant; [None] for a name that is not a zone *)
  zone_offset : string → Z → option Z;
  (** whether the zone of the process itself skips a wall-clock time
      (given as the seconds a UTC clock showing it has counted); the
      library reads the converted time back through the local clock *)
  skipped_locally : Z → bool;
  (** [dayjs(x).tz(zone).format(f)] ([dayjs.utc(x)] when the first
      argument is [true]) on the inputs that are not modelled *)
  dayjs_otherwise : bool → value → value → string → outcome value
}.

(** [dayjs(utcTime).tz(timezone).format(f)], or with [dayjs.utc] when
    [utc] is set: on an ISO 8601 instant and a zone of the database, the
    wall clock of the zone at that instant, formatted. *)
Definition dayjs_tz_format (rt : runtime) (utc : bool)
    (utcTime timezone : value) (f : string) : outcome value :=
  let modelled : option string :=
    match utcTime, timezone with
    | VStr s, VStr zone =>
        t ← Dayjs.iso_utc_seconds s;
        offset ← zone_offset rt zone t;
        let wall := (t + offset)%Z in
        if skipped_locally rt wall then None
        else Dayjs.format (Dayjs.fields_of_seconds wall) f
    | _, _ => None
    end in
  match modelled with
  | Some text => Return (VStr text)
  | None => dayjs_otherwise rt utc utcTime timezone f
  end.

(** ** Local-time formatting *)

Definition lift {S A} (r : outcome A) : M S A := λ s, (r, s).

Section Formatter.
Context (levels : log_levels) (rt : runtime).

Definition formatDay (utcTime timezone : value) : M console value :=
  if js_not utcTime || js_not timezone then
    when (error levels)
      (completeLogDebug levels
         "Invalid input: Both utcTime and timezone are required." VNull) ;;
    mret VNull
  else lift (dayjs_tz_format rt false utcTime timezone "dddd").

Definition formatDate (utcTime timezone : value) : M console value :=
  if js_not utcTime || js_not timezone then
    when (error levels)
      (completeLogDebug levels
         "Invalid input: Both utcTime and timezone are required." VNull) ;;
    mret VNull
  else lift (dayjs_tz_format rt true utcTime timezone "MMM DD, YYYY").

Definition formatTime (utcTime timezone : value) : M console value :=
  if js_not utcTime || js_not timezone then
    when (error levels)
      (completeLogDebug levels
         "Invalid input: Both utcTime and timezone are required." VNull) ;;
    mret VNull
  else lift (dayjs_tz_format rt false utcTime timezone "HH:mm:ss").
End Formatter.

(** ** The text of a log line *)

(** What the logger takes from its host: the time of the call, already
    formatted, and the conversions of the language that are not
    modelled. *)
Record host : Type := Host {
  (** [dayjs().tz(zone).format("YYYY-MM-DDTHH:mm:ssZ")] with the zone of
      the process, at the call *)
  clock_timestamp : string;
  (** [s.toUpperCase()] on a string that is not plain ASCII *)
  unicode_toUpperCase : string → string;
  (** [`${v}`] for a value that is not a string *)
  template_text : value → string;
  (** [`${JSON.stringify(v)}`], and [`${JSON.stringify(v, null, 2)}`]
      when the second argument is [true] *)
  JSON_stringify : value → bool → string
}.

Definition is_ascii (s : string) : bool :=
  forallb (λ c, (nat_of_ascii c <? 128)%nat) (list_ascii_of_string s).

Definition ascii_toUpperCase (c : ascii) : ascii :=
  let n := nat_of_ascii c in
  if (97 <=? n)%nat && (n <=? 122)%nat then ascii_of_nat (n - 32) else c.

Fixpoint map_string (f : ascii → ascii) (s : string) : string :=
  match s with
  | EmptyString => EmptyString
  | String c rest => String (f c) (map_string f rest)
  end.

(** [s.toUpperCase()]: on ASCII the letters [a] to [z] are raised and
    nothing else changes. *)
Definition toUpperCase (h : host) (s : string) : string :=
  if is_ascii s then map_string ascii_toUpperCase s else unicode_toUpperCase h s.

(** [a || b] *)
Definition js_or (a b : value) : value := if js_not a then b else a.

(** [o[k]] as a value, for an object literal whose properties are
    strings. *)
Definition read_string (o : gmap string string) (k : string) : value :=
  match read o k with
  | Own s => VStr s
  | Inherited name => VBuiltin name
  | Missing => VUndefined
  end.

(** The escape character that opens a colour code. *)
Definition ESC : string := String "027" "".

Definition level_colors : gmap string string :=
  list_to_map [ ("DEBUG", ESC +:+ "[35m"); ("INFO", ESC +:+ "[36m");
                ("WARN", ESC +:+ "[33m"); ("ERROR", ESC +:+ "[31m") ].

Definition getLogLevelColor (h : host) (logLevel : string) : value :=
  js_or (read_string level_colors (toUpperCase h logLevel)) (VStr (ESC +:+ "[37m")).

(** [`${v}`] *)
Definition template (h : host) (v : value) : string :=
  match v with
  | VStr s => s
  | _ => template_text h v
  end.

(** The string [logMessage] hands to [console.log]. *)
Definition logMessage_text (h : host) (levels : log_levels)
    (logLevel message : string) (additionalInfo : value) : string :=
  let timestamp := clock_timestamp h in
  let scriptName := "SLACK" in
  let colors_timestamp := ESC +:+ "[36m" in
  let colors_scriptName := ESC +:+ "[38;5;13m" in
  let colors_reset := ESC +:+ "[0m" in
  let colors_white := ESC +:+ "[37m" in
  let logMessage := colors_timestamp +:+ timestamp +:+ colors_reset +:+ " " in
  let logMessage :=
    logMessage +:+ colors_white +:+ "[" +:+ colors_scriptName +:+ scriptName
    +:+ colors_white +:+ "]" +:+ colors_reset +:+ " " in
  let logMessage :=
    logMessage +:+ template h (getLogLevelColor h logLevel) +:+ logLevel +:+ ":"
    +:+ colors_reset +:+ " " +:+ message in
  if js_not additionalInfo then logMessage
  else
    let additionalInfoString :=
      if compactLogs levels then JSON_stringify h additionalInfo false
      else JSON_stringify h additionalInfo true in
    logMessage +:+ " | Additional Info: " +:+ additionalInfoString.

(** The line printed for a record of the console. *)
Definition log_record_text (h : host) (levels : log_levels) (r : log_record)
  : string :=
  logMessage_text h levels (log_level r) (log_message r) (log_additionalInfo r).

(** * Vocabulary of the properties *)

(** The outcome of the validation and the object it leaves behind, by
    cases on the four fields it reads. The console does not influence
    either. *)
Definition validation_summary (n : gmap string value)
  : outcome unit * gmap string value :=
  if js_not (read_value n "slackwebhookURL") then
    (Throw (Error "Slack webhook URL is required for notifications."), n)
  else if js_not (read_value n "slackchannel") then
    (Throw (Error "Slack channel is required for notifications."), n)
  else if js_not (read_value n "slackusername") then
    (Throw (Error "Slack username is required for notifications."), n)
  else if js_not (read_value n "slackiconemo") then
    (Return tt, <["slackiconemo" := VStr ":robot_face:"]> n)
  else (Return tt, n).

(** An entry of the table as it should be: an array of three strings,
    the first of which is not ["Unknown"]. *)
Definition well_formed_entry (arr : list string) : bool :=
  match arr with
  | [a; _; _] => negb (String.eqb a "Unknown")
  | _ => false
  end.

(** The result for a name the table does not know. *)
Definition all_null : timezone_info := TimezoneInfo None None None.

(** A configuration that lacks the channel, one with every field and no
    icon, and one whose icon is the empty string. *)
Definition config_without_channel : gmap string value :=
  list_to_map [ ("slackwebhookURL", VStr "https://hooks.slack.com/services/T000/B000/XXXX");
                ("slackchannel", VStr "");
                ("slackusername", VStr "Uptime Kuma") ].

Definition config_without_icon : gmap string value :=
  list_to_map [ ("slackwebhookURL", VStr "https://hooks.slack.com/services/T000/B000/XXXX");
                ("slackchannel", VStr "#status");
                ("slackusername", VStr "Uptime Kuma") ].

Definition config_with_empty_icon : gmap string value :=
  <["slackiconemo" := VStr ""]> config_without_icon.

(** The first required field, in the order of [requiredFields], that
    the object does not hold a truthy value for. *)
Definition first_missing (n : gmap string value) : option required_field :=
  find (λ rf, js_not (read_value n (field rf))) requiredFields.

(** The record written for a missing field. *)
Definition missing_field_record (n : gmap string value) (rf : required_field)
  : log_record :=
  LogRecord "ERROR" "Missing required field in Slack notification configuration"
    (object [("field", VStr (field rf)); ("message", VStr (message rf));
             ("notification", VObj n)]).

(** The records a validation writes at the [DEBUG] level. *)
Definition validation_start_record (n : gmap string value) : log_record :=
  LogRecord "DEBUG" "Starting validation of Slack notification configuration"
    (object [("notification", VObj n)]).

Definition fields_present_record : log_record :=
  LogRecord "DEBUG"
    "All required fields are present in Slack notification configuration"
    (object [("requiredFields",
              VArr [VStr "slackwebhookURL"; VStr "slackchannel"; VStr "slackusername"])]).

Definition icon_record (text : string) (icon : value) : log_record :=
  LogRecord "DEBUG" text (object [("icon", icon)]).

(** The area of a zone identifier: what stands before its first
    slash. *)
Fixpoint area (timezone : string) : string :=
  match timezone with
  | EmptyString => EmptyString
  | String c rest => if bool_decide (c = "/"%char) then EmptyString
                     else String c (area rest)
  end.

(** The continents the table files the zones of an area under. *)
Definition area_continents : list (string * list string) :=
  [ ("Europe", ["Europe"]); ("America", ["North America"; "South America"]);
    ("Asia", ["Asia"]); ("Australia", ["Australia"]); ("Africa", ["Africa"]);
    ("Pacific", ["Pacific"]); ("Antarctica", ["Other"]); ("Indian", ["Other"]) ].

Definition continent_of_area (timezone continent : string) : bool :=
  existsb (λ '(a, cs), String.eqb a (area timezone)
                       && existsb (String.eqb continent) cs)
          area_continents.

(** The continents of the table. *)
Definition continents : list string :=
  [ "Europe"; "North America"; "South America"; "Asia"; "Australia";
    "Africa"; "Pacific"; "Other" ].

(** The record a resolution writes at the [DEBUG] level. *)
Definition resolution_record (timezone : string) (found : timezone_info)
  : log_record :=
  LogRecord "DEBUG"
    ("Timezone: " +:+ timezone +:+ ", Continent: " +:+ interpolate (continent found)
     +:+ ", Country: " +:+ interpolate (country found)
     +:+ ", Local Timezone: " +:+ interpolate (localTimezone found))
    VNull.

(** The names of the four levels and the five colour codes of
    [getLogLevelColor]. *)
Definition level_names : list string := ["DEBUG"; "INFO"; "WARN"; "ERROR"].

Definition white : string := ESC +:+ "[37m".

Definition level_codes : list string :=
  [ ESC +:+ "[35m"; ESC +:+ "[36m"; ESC +:+ "[33m"; ESC +:+ "[31m"; white ].

(** What a terminal shows of a line: the text without its colour codes,
    each of which runs from an escape character to the next [m]. *)
Fixpoint visible_from (inside : bool) (s : string) : string :=
  match s with
  | EmptyString => EmptyString
  | String c rest =>
      if inside then visible_from (negb (bool_decide (c = "m"%char))) rest
      else if bool_decide (c = "027"%char) then visible_from true rest
      else String c (visible_from false rest)
  end.

Definition visible (s : string) : string := visible_from false s.

(** A text that holds no escape character. *)
Definition plain (s : string) : bool :=
  forallb (λ c, negb (bool_decide (c = "027"%char))) (list_ascii_of_string s).

(** An escape character followed by a text whose only [m] is its last
    character. *)
Fixpoint code_body (s : string) : bool :=
  match s with
  | EmptyString => false
  | String c EmptyString => bool_decide (c = "m"%char)
  | String c rest => negb (bool_decide (c = "m"%char)) && code_body rest
  end.

Definition color_code (s : string) : bool :=
  match s with
  | String c body => bool_decide (c = "027"%char) && code_body body
  | EmptyString => false
  end.

(** A host for the examples. *)
Definition example_host : host :=
  {| clock_timestamp := "2025-01-01T00:00:00+01:00";
     unicode_toUpperCase := λ s, s;
     template_text := λ _, "";
     JSON_stringify := λ _ _, "{}" |}.

(** A configuration with an icon of its own. *)
Definition config_with_icon : gmap string value :=
  <["slackiconemo" := VStr ":rocket:"]> config_without_icon.

(** The diagnostic of the formatters. *)
Definition invalid_input_record : log_record :=
  LogRecord "DEBUG" "Invalid input: Both utcTime and timezone are required." VNull.

(** A runtime whose database knows the winter offset of
    Europe/Amsterdam, one hour east of UTC, and whose own zone skips
    nothing. *)
Definition winter_runtime : runtime :=
  {| zone_offset := λ zone _,
       if bool_decide (zone = "Europe/Amsterdam") then Some 3600%Z else None;
     skipped_locally := λ _, false;
     dayjs_otherwise := λ _ _ _ _, Throw RangeError |}.

(** Unfolds the monadic operations and the logger down to state
    passing. *)
Ltac run :=
  unfold completeLogDebug, completeLogInfo, completeLogWarn, completeLogError,
    logMessage, when, get_field, set_field, gets, modify, throw,
    mbind, mret, M_bind, M_ret, console_log, validation_logging,
    console_logging;
  cbn beta iota delta [notification output field message fst snd].

(** * Properties *)

(** ** Configuration validation *)

Lemma validate_summary levels n out :
  let r := validateNotificationConfig levels (ValidationState n out) in
  (r.1, notification r.2) = validation_summary n.
Proof.
  unfold validation_summary, validateNotificationConfig, requiredFields, forEach.
  run. destruct (debug levels), (error levels); run.
  all: destruct (js_not (read_value n "slackwebhookURL")); run; [ done | ].
  all: destruct (js_not (read_value n "slackchannel")); run; [ done | ].
  all: destruct (js_not (read_value n "slackusername")); run; [ done | ].
  all: by destruct (js_not (read_value n "slackiconemo")).
Qed.

(** ** The lookup table *)

Lemma timezoneToInfo_keys_NoDup : NoDup timezoneToInfo_entries.*1.
Proof. apply (bool_decide_unpack _). by vm_compute. Qed.

(** The map holds exactly the entries of the literal. *)
Lemma timezoneToInfo_lookup k arr :
  timezoneToInfo !! k = Some arr ↔ (k, arr) ∈ timezoneToInfo_entries.
Proof.
  unfold timezoneToInfo. symmetry.
  apply elem_of_list_to_map, timezoneToInfo_keys_NoDup.
Qed.

Lemma timezoneToInfo_entries_well_formed :
  forallb (λ e, well_formed_entry e.2) timezoneToInfo_entries = true.
Proof. vm_compute. reflexivity. Qed.

Lemma timezoneToInfo_well_formed k arr :
  timezoneToInfo !! k = Some arr →
  (∃ a b c, arr = [a; b; c]) ∧ arr !! 0 ≠ Some "Unknown".
Proof.
  intros H%timezoneToInfo_lookup%list_elem_of_In.
  pose proof (proj1 (forallb_forall _ _) timezoneToInfo_entries_well_formed
                _ H) as Hwf.
  cbn [snd] in Hwf. clear H.
  destruct arr as [|a [|b [|c [|]]]]; try discriminate Hwf.
  split; [ by exists a, b, c | ].
  intros [= ->]. discriminate Hwf.
Qed.

(** ** Timezone resolution *)

(** The three ways a call can go, by what [timezoneToInfo[timezone]]
    finds. *)
Lemma resolve_own levels timezone arr out :
  timezoneToInfo !! timezone = Some arr →
  (getAllInformationFromTimezone levels timezone out).1
  = Return (TimezoneInfo (arr !! 0) (arr !! 1) (arr !! 2)).
Proof.
  intros H. unfold getAllInformationFromTimezone, read. rewrite H.
  cbn [or_empty_array destructure3]. run.
  destruct (debug levels), (bool_decide _), (warn levels); reflexivity.
Qed.

Lemma resolve_missing levels timezone out :
  timezoneToInfo !! timezone = None → timezone ∉ Object_prototype →
  (getAllInformationFromTimezone levels timezone out).1 = Return all_null.
Proof.
  intros H Hproto. unfold getAllInformationFromTimezone, read. rewrite H.
  rewrite bool_decide_eq_false_2 by done.
  cbn [or_empty_array destructure3]. run.
  destruct (debug levels), (bool_decide _), (warn levels); reflexivity.
Qed.

Lemma resolve_inherited levels timezone out :
  timezoneToInfo !! timezone = None → timezone ∈ Object_prototype →
  getAllInformationFromTimezone levels timezone out = (Throw TypeError, out).
Proof.
  intros H Hproto. unfold getAllInformationFromTimezone, read. rewrite H.
  rewrite bool_decide_eq_true_2 by done.
  cbn [or_empty_array destructure3]. run. reflexivity.
Qed.

(** Whatever the levels, a call adds nothing but [DEBUG] records to the
    console. *)
Lemma resolve_console levels timezone out :
  ∃ extra, (getAllInformationFromTimezone levels timezone out).2 = (out ++ extra)%list
           ∧ Forall (λ r, log_level r = "DEBUG") extra.
Proof.
  unfold getAllInformationFromTimezone, read.
  destruct (timezoneToInfo !! timezone) as [arr|] eqn:H.
  - apply timezoneToInfo_well_formed in H as [_ Hunknown].
    cbn [or_empty_array destructure3]. run.
    rewrite (bool_decide_eq_false_2 _ Hunknown). cbn [andb].
    destruct (debug levels); run.
    + eexists [_]. split; [ reflexivity | by repeat constructor ].
    + exists []. by rewrite app_nil_r.
  - clear H. case_bool_decide; cbn [or_empty_array destructure3]; run.
    + exists []. by rewrite app_nil_r.
    + destruct (debug levels); run.
      * eexists [_]. split; [ reflexivity | by repeat constructor ].
      * exists []. by rewrite app_nil_r.
Qed.

(** The all-or-nothing shape of a result: off the names inherited from
    [Object.prototype], a key of the table resolves to three strings
    and any other name to three [null]s. *)
Lemma resolve_all_or_nothing levels timezone out :
  timezone ∉ Object_prototype →
  ∃ info, (getAllInformationFromTimezone levels timezone out).1 = Return info ∧
    ((is_Some (timezoneToInfo !! timezone) ∧ is_Some (continent info)
      ∧ is_Some (country info) ∧ is_Some (localTimezone info))
     ∨ (timezoneToInfo !! timezone = None ∧ info = all_null)).
Proof.
  intros Hproto. destruct (timezoneToInfo !! timezone) as [arr|] eqn:H.
  - eexists. split; [ apply resolve_own, H | left ].
    split; [ by eexists | ].
    apply timezoneToInfo_well_formed in H as [(a & b & c & ->) _].
    repeat split; by eexists.
  - exists all_null. split; [ apply resolve_missing; assumption | right ].
    split; reflexivity.
Qed.

(** C6. ["Europe/Amsterdam"] resolves to Europe, Netherlands, Central
    European Time. *)
Theorem resolve_Europe_Amsterdam levels out :
  (getAllInformationFromTimezone levels "Europe/Amsterdam" out).1
  = Return {| continent := Some "Europe";
              country := Some "Netherlands";
              localTimezone := Some "Central European Time" |}.
Proof.
  apply (resolve_own levels "Europe/Amsterdam"
           ["Europe"; "Netherlands"; "Central European Time"]).
  vm_compute. reflexivity.
Qed.

(** C5. The comparison of the continent with ["Unknown"] never
    succeeds: a result carries [null] or the continent of a table entry,
    never ["Unknown"], and no call writes a [WARN] record, whatever the
    log levels. *)
Theorem resolve_unknown_branch_dead levels timezone out :
  let r := getAllInformationFromTimezone levels timezone out in
  match r.1 with
  | Return info =>
      continent info ≠ Some "Unknown"
      ∧ (continent info = None
         ∨ ∃ k arr, (k, arr) ∈ timezoneToInfo_entries ∧ arr !! 0 = continent info)
  | Throw _ => True
  end
  ∧ ∃ extra, r.2 = (out ++ extra)%list
             ∧ Forall (λ rec, log_level rec ≠ "WARN") extra.
Proof.
  cbn zeta. split.
  - destruct (timezoneToInfo !! timezone) as [arr|] eqn:H.
    + rewrite (resolve_own _ _ _ _ H). cbn [continent].
      split; [ by apply (timezoneToInfo_well_formed _ _ H) | right ].
      exists timezone, arr. split; [ apply timezoneToInfo_lookup, H | reflexivity ].
    + destruct (decide (timezone ∈ Object_prototype)) as [Hin|Hout].
      * by rewrite (resolve_inherited _ _ _ H Hin).
      * rewrite (resolve_missing _ _ _ H Hout). cbn. split; [ done | by left ].
  - destruct (resolve_console levels timezone out) as (extra & -> & Hdebug).
    exists extra. split; [ done | ].
    eapply Forall_impl; [ exact Hdebug | ]. intros rec ->. discriminate.
Qed.

(** C2. ["toString"] is no key of the table, yet resolving it throws a
    [TypeError] where three [null]s were to be returned: the read finds
    the method every object inherits, which cannot be destructured. *)
Theorem resolve_toString_throws :
  timezoneToInfo !! "toString" = None
  ∧ getAllInformationFromTimezone logLevelsEnabled "toString" []
    = (Throw TypeError, []).
Proof. split; vm_compute; reflexivity. Qed.

(** C10. Resolution is not total: it throws on each of the names
    inherited from [Object.prototype], none of which is a key of the
    table. *)
Theorem resolve_throws_on_inherited_names :
  Forall (λ name,
            timezoneToInfo !! name = None
            ∧ (getAllInformationFromTimezone logLevelsEnabled name []).1
              = Throw TypeError)
         Object_prototype.
Proof. repeat constructor; vm_compute; reflexivity. Qed.

(** ** Validation: outcome and effect on the object *)

(** A field that is absent, [null] or the empty string is read as
    falsy. *)
Lemma missing_field_is_falsy (n : gmap string value) k :
  k ∉ Object_prototype →
  n !! k = None ∨ n !! k = Some VNull ∨ n !! k = Some (VStr "") →
  js_not (read_value n k) = true.
Proof.
  intros Hproto. unfold read_value, read.
  intros [-> | [-> | ->]]; [ | done | done ].
  by rewrite bool_decide_eq_false_2.
Qed.

(** C1. A configuration in which a required field is missing or falsy
    is rejected with an [Error] whose message names a field: the first
    falsy one in the order webhook URL, channel, username. *)
Theorem validate_missing_required_field levels n out :
  js_not (read_value n "slackwebhookURL") = true
  ∨ js_not (read_value n "slackchannel") = true
  ∨ js_not (read_value n "slackusername") = true →
  (validateNotificationConfig levels (ValidationState n out)).1
  = Throw (Error
      (if js_not (read_value n "slackwebhookURL")
       then "Slack webhook URL is required for notifications."
       else if js_not (read_value n "slackchannel")
       then "Slack channel is required for notifications."
       else "Slack username is required for notifications.")).
Proof.
  intros Hmissing.
  pose proof (validate_summary levels n out) as Hsum. cbn zeta in Hsum.
  apply (f_equal fst) in Hsum. cbn [fst] in Hsum. rewrite Hsum.
  unfold validation_summary.
  destruct (js_not (read_value n "slackwebhookURL")); [ done | ].
  destruct (js_not (read_value n "slackchannel")); [ done | ].
  destruct (js_not (read_value n "slackusername")); [ done | ].
  by destruct Hmissing as [? | [? | ?]].
Qed.

Lemma validate_missing_required_field_witness :
  (validateNotificationConfig logLevelsEnabled
     (ValidationState config_without_channel [])).1
  = Throw (Error "Slack channel is required for notifications.").
Proof.
  refine (validate_missing_required_field logLevelsEnabled
            config_without_channel [] _).
  right; left. vm_compute. reflexivity.
Defined.

(** C4, as the code has it. When the three required fields are truthy
    the validation succeeds; it stores [":robot_face:"] in the icon
    field when that field is missing or falsy, and leaves the object as
    it is when the icon is truthy. *)
Theorem validate_icon_defaulting levels n out :
  js_not (read_value n "slackwebhookURL") = false →
  js_not (read_value n "slackchannel") = false →
  js_not (read_value n "slackusername") = false →
  let r := validateNotificationConfig levels (ValidationState n out) in
  r.1 = Return tt
  ∧ notification r.2 =
      if js_not (read_value n "slackiconemo")
      then <["slackiconemo" := VStr ":robot_face:"]> n
      else n.
Proof.
  intros Hw Hc Hu.
  pose proof (validate_summary levels n out) as Hsum. cbn zeta in *.
  unfold validation_summary in Hsum. rewrite Hw, Hc, Hu in Hsum.
  destruct (js_not (read_value n "slackiconemo"));
    injection Hsum as H1 H2; by rewrite H1, H2.
Qed.

Lemma validate_icon_defaulting_witness :
  let r := validateNotificationConfig logLevelsEnabled
             (ValidationState config_without_icon []) in
  r.1 = Return tt
  ∧ notification r.2 = <["slackiconemo" := VStr ":robot_face:"]> config_without_icon.
Proof.
  refine (validate_icon_defaulting logLevelsEnabled config_without_icon [] _ _ _);
    vm_compute; reflexivity.
Defined.

(** C4, as stated, fails on an icon that is present and falsy: the
    empty string a user supplied is replaced by the default. *)
Lemma validate_replaces_empty_icon :
  let r := validateNotificationConfig logLevelsEnabled
             (ValidationState config_with_empty_icon []) in
  config_with_empty_icon !! "slackiconemo" = Some (VStr "")
  ∧ r.1 = Return tt
  ∧ notification r.2 !! "slackiconemo" = Some (VStr ":robot_face:")
  ∧ notification r.2 ≠ config_with_empty_icon.
Proof.
  cbn zeta. split; [ by vm_compute | ]. split; [ by vm_compute | ].
  split; [ by vm_compute | ].
  intros Heq. apply (f_equal (λ m, m !! "slackiconemo")) in Heq.
  vm_compute in Heq. discriminate.
Qed.

(** C8. Whether it returns or throws, the validation changes no field
    of the object other than the icon. *)
Theorem validate_modifies_only_icon levels n out k :
  k ≠ "slackiconemo" →
  notification (validateNotificationConfig levels (ValidationState n out)).2 !! k
  = n !! k.
Proof.
  intros Hk.
  pose proof (validate_summary levels n out) as Hsum. cbn zeta in Hsum.
  apply (f_equal snd) in Hsum. cbn [snd] in Hsum. rewrite Hsum.
  unfold validation_summary.
  repeat (match goal with |- context [js_not ?v] => destruct (js_not v) end;
          cbn [snd]; try done).
  by rewrite lookup_insert_ne.
Qed.

Lemma validate_modifies_only_icon_witness :
  notification (validateNotificationConfig logLevelsEnabled
                  (ValidationState config_without_icon [])).2 !! "slackchannel"
  = config_without_icon !! "slackchannel".
Proof.
  refine (validate_modifies_only_icon logLevelsEnabled config_without_icon []
            "slackchannel" _).
  discriminate.
Defined.

(** C9. A validation that fails leaves the whole object as it was; in
    particular no default icon is stored. *)
Theorem validate_failure_leaves_object levels n out :
  js_not (read_value n "slackwebhookURL") = true
  ∨ js_not (read_value n "slackchannel") = true
  ∨ js_not (read_value n "slackusername") = true →
  let r := validateNotificationConfig levels (ValidationState n out) in
  (∃ msg, r.1 = Throw (Error msg)) ∧ notification r.2 = n.
Proof.
  intros Hmissing.
  pose proof (validate_summary levels n out) as Hsum. cbn zeta in *.
  unfold validation_summary in Hsum.
  destruct (js_not (read_value n "slackwebhookURL"));
    [ injection Hsum as H1 H2; rewrite H1, H2; eauto | ].
  destruct (js_not (read_value n "slackchannel"));
    [ injection Hsum as H1 H2; rewrite H1, H2; eauto | ].
  destruct (js_not (read_value n "slackusername"));
    [ injection Hsum as H1 H2; rewrite H1, H2; eauto | ].
  by destruct Hmissing as [? | [? | ?]].
Qed.

Lemma validate_failure_leaves_object_witness :
  let r := validateNotificationConfig logLevelsEnabled
             (ValidationState config_without_channel []) in
  (∃ msg, r.1 = Throw (Error msg)) ∧ notification r.2 = config_without_channel.
Proof.
  refine (validate_failure_leaves_object logLevelsEnabled
            config_without_channel [] _).
  right; left. vm_compute. reflexivity.
Defined.

(** ** Local-time formatting: the guard and a conversion *)

(** The calendar arithmetic on some known days. *)
Example epoch_is_a_thursday :
  Dayjs.fields_of_seconds 0 = Dayjs.Fields 1970 1 1 0 0 0 4.
Proof. reflexivity. Qed.

Example leap_day_2024 :
  Dayjs.civil_from_days (Dayjs.days_from_civil 2024 2 29) = (2024, 2, 29)%Z
  ∧ Dayjs.civil_from_days (Dayjs.days_from_civil 2024 2 29 + 1) = (2024, 3, 1)%Z
  ∧ Dayjs.civil_from_days (Dayjs.days_from_civil 2100 2 28 + 1) = (2100, 3, 1)%Z.
Proof. by vm_compute. Qed.

(** With a falsy argument each formatter returns [null] and throws
    nothing; the diagnostic goes through [completeLogDebug] under the
    [error] flag, so it is written only when both levels are enabled. *)
Lemma format_guard levels rt utcTime timezone out :
  js_not utcTime || js_not timezone = true →
  let expected : outcome value * console :=
    (Return VNull,
     if error levels && debug levels then (out ++ [invalid_input_record])%list
     else out) in
  formatDay levels rt utcTime timezone out = expected
  ∧ formatDate levels rt utcTime timezone out = expected
  ∧ formatTime levels rt utcTime timezone out = expected.
Proof.
  intros Hfalsy. cbn zeta. unfold formatDay, formatDate, formatTime.
  rewrite Hfalsy. run.
  by destruct (error levels), (debug levels).
Qed.

(** C3. With the levels the program ships, [formatDay(null,
    "Europe/Paris")] returns [null] without throwing and writes nothing
    to the console, and so do [formatDate] and [formatTime]: the
    diagnostic is passed to [completeLogDebug], which is disabled. *)
Theorem format_missing_input_logs_nothing rt :
  formatDay logLevelsEnabled rt VNull (VStr "Europe/Paris") [] = (Return VNull, [])
  ∧ formatDate logLevelsEnabled rt VNull (VStr "Europe/Paris") [] = (Return VNull, [])
  ∧ formatTime logLevelsEnabled rt VNull (VStr "Europe/Paris") [] = (Return VNull, []).
Proof. by apply (format_guard logLevelsEnabled rt VNull (VStr "Europe/Paris") []). Qed.

(** C7. [formatDate("2024-12-31T23:00:00Z", "Europe/Amsterdam")] is
    ["Jan 01, 2025"]: the instant is read as UTC and moved by the offset
    the zone observes at that instant, one hour in winter, which is
    past midnight of the new year. *)
Theorem formatDate_new_year_in_Amsterdam levels rt out :
  zone_offset rt "Europe/Amsterdam" 1735686000 = Some 3600%Z →
  skipped_locally rt 1735689600 = false →
  formatDate levels rt (VStr "2024-12-31T23:00:00Z") (VStr "Europe/Amsterdam") out
  = (Return (VStr "Jan 01, 2025"), out).
Proof.
  intros Hzone Hlocal. unfold formatDate, lift, dayjs_tz_format.
  cbn [js_not orb].
  replace (Dayjs.iso_utc_seconds "2024-12-31T23:00:00Z")
    with (Some 1735686000%Z) by (vm_compute; reflexivity).
  cbn [mbind option_bind]. rewrite Hzone. cbn [mbind option_bind].
  change (1735686000 + 3600)%Z with 1735689600%Z. rewrite Hlocal.
  reflexivity.
Qed.

Lemma formatDate_new_year_in_Amsterdam_witness :
  formatDate logLevelsEnabled winter_runtime
    (VStr "2024-12-31T23:00:00Z") (VStr "Europe/Amsterdam") []
  = (Return (VStr "Jan 01, 2025"), []).
Proof.
  refine (formatDate_new_year_in_Amsterdam logLevelsEnabled winter_runtime [] _ _);
    reflexivity.
Defined.

(** The same instant in a zone on UTC is still in the old year. *)
Example formatDate_same_instant_on_UTC :
  formatDate logLevelsEnabled
    {| zone_offset := λ _ _, Some 0%Z; skipped_locally := λ _, false;
       dayjs_otherwise := λ _ _ _ _, Throw RangeError |}
    (VStr "2024-12-31T23:00:00Z") (VStr "Etc/UTC") []
  = (Return (VStr "Dec 31, 2024"), []).
Proof. by vm_compute. Qed.

(** * Further properties *)

(** ** Validation *)

Lemma read_value_insert_ne (n : gmap string value) k k' v :
  k ≠ k' → read_value (<[k := v]> n) k' = read_value n k'.
Proof. intros H. unfold read_value, read. by rewrite lookup_insert_ne. Qed.

Lemma read_value_insert_eq (n : gmap string value) k v :
  read_value (<[k := v]> n) k = v.
Proof. unfold read_value, read. by rewrite lookup_insert_eq. Qed.

(** Validating what a validation left behind gives the summary of the
    first run again. *)
Lemma validation_summary_stable n :
  validation_summary (validation_summary n).2 = validation_summary n.
Proof.
  unfold validation_summary.
  destruct (js_not (read_value n "slackwebhookURL")) eqn:Hw;
    [ cbn [snd]; by rewrite Hw | ].
  destruct (js_not (read_value n "slackchannel")) eqn:Hc;
    [ cbn [snd]; by rewrite Hw, Hc | ].
  destruct (js_not (read_value n "slackusername")) eqn:Hu;
    [ cbn [snd]; by rewrite Hw, Hc, Hu | ].
  destruct (js_not (read_value n "slackiconemo")) eqn:Hi; cbn [snd].
  - rewrite !read_value_insert_ne by done. rewrite Hw, Hc, Hu.
    by rewrite read_value_insert_eq.
  - by rewrite Hw, Hc, Hu, Hi.
Qed.

(** X1. The validation succeeds exactly when the three required fields
    hold truthy values, of whatever type. *)
Theorem validate_succeeds_iff levels n out :
  (validateNotificationConfig levels (ValidationState n out)).1 = Return tt
  ↔ js_not (read_value n "slackwebhookURL") = false
    ∧ js_not (read_value n "slackchannel") = false
    ∧ js_not (read_value n "slackusername") = false.
Proof.
  pose proof (validate_summary levels n out) as Hsum. cbn zeta in Hsum.
  apply (f_equal fst) in Hsum. cbn [fst] in Hsum. rewrite Hsum.
  unfold validation_summary.
  destruct (js_not (read_value n "slackwebhookURL")); [ by split; [ | intros (? & _) ] | ].
  destruct (js_not (read_value n "slackchannel")); [ by split; [ | intros (_ & ? & _) ] | ].
  destruct (js_not (read_value n "slackusername")); [ by split; [ | intros (_ & _ & ?) ] | ].
  by destruct (js_not (read_value n "slackiconemo")).
Qed.

(** X2. Validating twice is the same as validating once: the second
    run ends as the first did, returning or throwing the same error, and
    leaves the object the first run left. *)
Theorem validate_idempotent levels n out :
  let once := validateNotificationConfig levels (ValidationState n out) in
  let twice := validateNotificationConfig levels once.2 in
  twice.1 = once.1 ∧ notification twice.2 = notification once.2.
Proof.
  cbn zeta.
  pose proof (validate_summary levels n out) as H1. cbn zeta in H1.
  destruct (validateNotificationConfig levels (ValidationState n out))
    as [r1 [n1 out1]] eqn:Hrun. cbn [fst snd notification] in *.
  pose proof (validate_summary levels n1 out1) as H2. cbn zeta in H2.
  pose proof (validation_summary_stable n) as Hstable.
  rewrite <- H1 in Hstable. cbn [snd] in Hstable.
  rewrite <- H2 in Hstable. by injection Hstable.
Qed.

(** X3. After a successful validation the icon field is truthy: it is
    the truthy value the object came with, or [":robot_face:"]. *)
Theorem validate_success_icon_truthy levels n out :
  let r := validateNotificationConfig levels (ValidationState n out) in
  r.1 = Return tt →
  js_not (read_value (notification r.2) "slackiconemo") = false
  ∧ (read_value (notification r.2) "slackiconemo" = read_value n "slackiconemo"
     ∨ read_value (notification r.2) "slackiconemo" = VStr ":robot_face:").
Proof.
  cbn zeta.
  pose proof (validate_summary levels n out) as Hsum. cbn zeta in Hsum.
  unfold validation_summary in Hsum. intros Hok.
  destruct (js_not (read_value n "slackwebhookURL")); [ congruence | ].
  destruct (js_not (read_value n "slackchannel")); [ congruence | ].
  destruct (js_not (read_value n "slackusername")); [ congruence | ].
  destruct (js_not (read_value n "slackiconemo")) eqn:Hi;
    injection Hsum as _ ->.
  - rewrite read_value_insert_eq. by split; [ | right ].
  - by split; [ | left ].
Qed.

Lemma validate_success_icon_truthy_witness :
  let r := validateNotificationConfig logLevelsEnabled
             (ValidationState config_without_icon []) in
  js_not (read_value (notification r.2) "slackiconemo") = false
  ∧ (read_value (notification r.2) "slackiconemo"
     = read_value config_without_icon "slackiconemo"
     ∨ read_value (notification r.2) "slackiconemo" = VStr ":robot_face:").
Proof.
  refine (validate_success_icon_truthy logLevelsEnabled config_without_icon [] _).
  vm_compute. reflexivity.
Defined.

(** X4. Neither the log levels nor what the console already holds
    change how a validation ends or what it does to the object. *)
Theorem validate_independent_of_logging levels levels' n out out' :
  let r := validateNotificationConfig levels (ValidationState n out) in
  let r' := validateNotificationConfig levels' (ValidationState n out') in
  r.1 = r'.1 ∧ notification r.2 = notification r'.2.
Proof.
  cbn zeta.
  pose proof (validate_summary levels n out) as H. cbn zeta in H.
  pose proof (validate_summary levels' n out') as H'. cbn zeta in H'.
  rewrite <- H' in H. by injection H.
Qed.

(** The whole run of a validation, console included. *)
Lemma validate_run levels n out :
  validateNotificationConfig levels (ValidationState n out) =
  let started :=
    (out ++ if debug levels then [validation_start_record n] else [])%list in
  match first_missing n with
  | Some rf =>
      (Throw (Error (message rf)),
       ValidationState n
         (started ++ if error levels then [missing_field_record n rf] else []))
  | None =>
      let icon := read_value n "slackiconemo" in
      if js_not icon then
        (Return tt,
         ValidationState (<["slackiconemo" := VStr ":robot_face:"]> n)
           (started ++ if debug levels
                       then [fields_present_record;
                             icon_record "Default Slack icon emoji set"
                               (VStr ":robot_face:")]
                       else []))
      else
        (Return tt,
         ValidationState n
           (started ++ if debug levels
                       then [fields_present_record;
                             icon_record "Custom Slack icon emoji provided" icon]
                       else []))
  end%list.
Proof.
  unfold first_missing, validateNotificationConfig, requiredFields, forEach.
  cbn [find field message]. run.
  destruct (debug levels), (error levels); run.
  all: destruct (js_not (read_value n "slackwebhookURL")); run;
    [ by rewrite <- ?app_assoc, ?app_nil_r | ].
  all: destruct (js_not (read_value n "slackchannel")); run;
    [ by rewrite <- ?app_assoc, ?app_nil_r | ].
  all: destruct (js_not (read_value n "slackusername")); run;
    [ by rewrite <- ?app_assoc, ?app_nil_r | ].
  all: destruct (js_not (read_value n "slackiconemo")); run;
    rewrite ?read_value_insert_eq, <- ?app_assoc, ?app_nil_r; reflexivity.
Qed.

(** X5. With [DEBUG] off and [ERROR] on, as shipped, a failed
    validation writes exactly one record: an [ERROR] naming the first
    missing field, carrying the message that is thrown and the object as
    it stands. *)
Theorem validate_failure_logs_missing_field levels n out rf :
  debug levels = false → error levels = true →
  first_missing n = Some rf →
  validateNotificationConfig levels (ValidationState n out)
  = (Throw (Error (message rf)),
     ValidationState n (out ++ [missing_field_record n rf])%list).
Proof.
  intros Hd He Hrf. rewrite validate_run. cbn zeta.
  by rewrite Hrf, Hd, He, app_nil_r.
Qed.

Lemma validate_failure_logs_missing_field_witness :
  validateNotificationConfig logLevelsEnabled
    (ValidationState config_without_channel [])
  = (Throw (Error "Slack channel is required for notifications."),
     ValidationState config_without_channel
       [ missing_field_record config_without_channel
           (RequiredField "slackchannel"
              "Slack channel is required for notifications.") ]).
Proof.
  refine (validate_failure_logs_missing_field logLevelsEnabled
            config_without_channel []
            (RequiredField "slackchannel"
               "Slack channel is required for notifications.") _ _ _);
    vm_compute; reflexivity.
Defined.

(** X6. With [DEBUG] off, as shipped, a validation that finds no field
    missing returns and writes nothing to the console. *)
Theorem validate_success_is_silent levels n out :
  debug levels = false →
  first_missing n = None →
  let r := validateNotificationConfig levels (ValidationState n out) in
  r.1 = Return tt ∧ output r.2 = out.
Proof.
  intros Hd Hnone. rewrite validate_run. cbn zeta. rewrite Hnone, Hd.
  destruct (js_not (read_value n "slackiconemo")); cbn [fst snd output];
    by rewrite !app_nil_r.
Qed.

Lemma validate_success_is_silent_witness :
  let r := validateNotificationConfig logLevelsEnabled
             (ValidationState config_with_icon []) in
  r.1 = Return tt ∧ output r.2 = [].
Proof.
  refine (validate_success_is_silent logLevelsEnabled config_with_icon [] _ _);
    vm_compute; reflexivity.
Defined.

(** X7. Only four fields are read: two objects that agree on the three
    required fields and on the icon are validated with the same
    outcome, whatever else they hold. *)
Theorem validate_reads_four_fields levels n1 n2 out1 out2 :
  Forall (λ k, read_value n1 k = read_value n2 k)
    ["slackwebhookURL"; "slackchannel"; "slackusername"; "slackiconemo"] →
  (validateNotificationConfig levels (ValidationState n1 out1)).1
  = (validateNotificationConfig levels (ValidationState n2 out2)).1.
Proof.
  intros H.
  apply Forall_cons in H as [Hw H]. apply Forall_cons in H as [Hc H].
  apply Forall_cons in H as [Hu H]. apply Forall_cons in H as [Hi _].
  pose proof (validate_summary levels n1 out1) as H1. cbn zeta in H1.
  pose proof (validate_summary levels n2 out2) as H2. cbn zeta in H2.
  apply (f_equal fst) in H1, H2. cbn [fst] in H1, H2. rewrite H1, H2.
  unfold validation_summary. rewrite Hw, Hc, Hu, Hi.
  by repeat match goal with |- context [js_not ?v] => destruct (js_not v) end.
Qed.

Lemma validate_reads_four_fields_witness :
  (validateNotificationConfig logLevelsEnabled
     (ValidationState config_with_icon [])).1
  = (validateNotificationConfig logLevelsEnabled
       (ValidationState (<["slackmessage" := VStr "down"]> config_with_icon) [])).1.
Proof.
  refine (validate_reads_four_fields logLevelsEnabled config_with_icon
            (<["slackmessage" := VStr "down"]> config_with_icon) [] [] _).
  repeat constructor.
Defined.

(** X8. A validation never removes a field, and the only field it can
    add is the icon. *)
Theorem validate_keeps_fields levels n out :
  let n' := notification (validateNotificationConfig levels (ValidationState n out)).2 in
  dom n ⊆ dom n' ∧ dom n' ⊆ {["slackiconemo"]} ∪ dom n.
Proof.
  cbn zeta.
  pose proof (validate_summary levels n out) as Hsum. cbn zeta in Hsum.
  apply (f_equal snd) in Hsum. cbn [snd] in Hsum. rewrite Hsum.
  unfold validation_summary.
  repeat (match goal with |- context [js_not ?v] => destruct (js_not v) end;
          cbn [snd]; try set_solver).
Qed.

(** ** Timezone resolution *)

(** A check that passes on every entry of the literal holds of whatever
    the table finds. *)
Lemma timezoneToInfo_forall (P : string → list string → bool) :
  forallb (λ e, P e.1 e.2) timezoneToInfo_entries = true →
  ∀ k arr, timezoneToInfo !! k = Some arr → P k arr = true.
Proof.
  intros Hall k arr H%timezoneToInfo_lookup%list_elem_of_In.
  exact (proj1 (forallb_forall _ _) Hall (k, arr) H).
Qed.

(** No key of the table is a name inherited from [Object.prototype]. *)
Lemma inherited_names_are_no_keys name :
  name ∈ Object_prototype → timezoneToInfo !! name = None.
Proof.
  revert name. apply Forall_forall.
  repeat constructor; vm_compute; reflexivity.
Qed.

(** X9. A resolution throws exactly on the twelve names every object
    inherits, and then a [TypeError]; on every other string it
    returns. *)
Theorem resolve_throws_exactly_on_inherited levels timezone out :
  match (getAllInformationFromTimezone levels timezone out).1 with
  | Throw e => e = TypeError ∧ timezone ∈ Object_prototype
  | Return _ => timezone ∉ Object_prototype
  end.
Proof.
  destruct (decide (timezone ∈ Object_prototype)) as [Hin|Hout].
  - by rewrite (resolve_inherited levels timezone out
                  (inherited_names_are_no_keys _ Hin) Hin).
  - destruct (resolve_all_or_nothing levels timezone out Hout) as (info & -> & _).
    exact Hout.
Qed.

(** X10. The result of a resolution depends on the identifier alone:
    not on the log levels, not on the console. *)
Theorem resolve_independent_of_logging levels levels' timezone out out' :
  (getAllInformationFromTimezone levels timezone out).1
  = (getAllInformationFromTimezone levels' timezone out').1.
Proof.
  destruct (timezoneToInfo !! timezone) as [arr|] eqn:H.
  - by rewrite !(resolve_own _ _ _ _ H).
  - destruct (decide (timezone ∈ Object_prototype)) as [Hin|Hout].
    + by rewrite !(resolve_inherited _ _ _ H Hin).
    + by rewrite !(resolve_missing _ _ _ H Hout).
Qed.

(** X11. Three [null]s are returned for exactly the strings that are
    neither a key of the table nor an inherited name. *)
Theorem resolve_all_null_iff_unknown levels timezone out :
  (getAllInformationFromTimezone levels timezone out).1 = Return all_null
  ↔ timezoneToInfo !! timezone = None ∧ timezone ∉ Object_prototype.
Proof.
  split.
  - intros Hnull. destruct (timezoneToInfo !! timezone) as [arr|] eqn:H.
    + rewrite (resolve_own _ _ _ _ H) in Hnull.
      apply timezoneToInfo_well_formed in H as [(a & b & c & ->) _].
      discriminate Hnull.
    + split; [ reflexivity | ]. intros Hin.
      rewrite (resolve_inherited _ _ _ H Hin) in Hnull. discriminate Hnull.
  - intros [H Hout]. by apply resolve_missing.
Qed.

(** X12. The continent of a result is [null] or one of eight names. *)
Theorem resolve_continent_names levels timezone out :
  match (getAllInformationFromTimezone levels timezone out).1 with
  | Return found =>
      continent found = None ∨ ∃ c, continent found = Some c ∧ c ∈ continents
  | Throw _ => True
  end.
Proof.
  destruct (timezoneToInfo !! timezone) as [arr|] eqn:H.
  - rewrite (resolve_own _ _ _ _ H). cbn [continent].
    pose proof (timezoneToInfo_forall
      (λ _ arr, match arr !! 0 with
                | Some c => bool_decide (c ∈ continents)
                | None => false
                end)) as Hall.
    specialize (Hall ltac:(vm_compute; reflexivity) _ _ H). cbn beta in Hall.
    destruct (arr !! 0) as [c|]; [ | discriminate Hall ].
    apply bool_decide_eq_true in Hall.
    right. exists c. split; [ reflexivity | exact Hall ].
  - destruct (decide (timezone ∈ Object_prototype)) as [Hin|Hout].
    + by rewrite (resolve_inherited _ _ _ H Hin).
    + rewrite (resolve_missing _ _ _ H Hout). by left.
Qed.

(** X13. The continent agrees with the area of the identifier: a zone
    under [Europe/], [Asia/], [Africa/], [Australia/] or [Pacific/]
    resolves to the continent of that name, one under [America/] to
    North or South America, one under [Antarctica/] or [Indian/] to
    ["Other"]. *)
Theorem resolve_continent_matches_area levels timezone out found c :
  (getAllInformationFromTimezone levels timezone out).1 = Return found →
  continent found = Some c →
  continent_of_area timezone c = true.
Proof.
  intros Hrun Hc. destruct (timezoneToInfo !! timezone) as [arr|] eqn:H.
  - rewrite (resolve_own _ _ _ _ H) in Hrun. injection Hrun as <-.
    cbn [continent] in Hc.
    pose proof (timezoneToInfo_forall
      (λ k arr, match arr !! 0 with
                | Some c => continent_of_area k c
                | None => false
                end)) as Hall.
    specialize (Hall ltac:(vm_compute; reflexivity) _ _ H). cbn beta in Hall.
    by rewrite Hc in Hall.
  - destruct (decide (timezone ∈ Object_prototype)) as [Hin|Hout].
    + by rewrite (resolve_inherited _ _ _ H Hin) in Hrun.
    + rewrite (resolve_missing _ _ _ H Hout) in Hrun. injection Hrun as <-.
      discriminate Hc.
Qed.

Lemma resolve_continent_matches_area_witness :
  continent_of_area "America/Lima" "South America" = true.
Proof.
  refine (resolve_continent_matches_area logLevelsEnabled "America/Lima" []
            (TimezoneInfo (Some "South America") (Some "Peru") (Some "Peru Time"))
            "South America" _ _);
    vm_compute; reflexivity.
Defined.

(** X14. Every entry of the literal can be looked up: resolving its key
    returns its three strings, no entry being shadowed by another. *)
Theorem resolve_every_entry levels out k a b c :
  (k, [a; b; c]) ∈ timezoneToInfo_entries →
  (getAllInformationFromTimezone levels k out).1
  = Return (TimezoneInfo (Some a) (Some b) (Some c)).
Proof.
  intros H%timezoneToInfo_lookup.
  by rewrite (resolve_own _ _ _ _ H).
Qed.

Lemma resolve_every_entry_witness :
  (getAllInformationFromTimezone logLevelsEnabled "Asia/Tokyo" []).1
  = Return (TimezoneInfo (Some "Asia") (Some "Japan") (Some "Japan Standard Time")).
Proof.
  refine (resolve_every_entry logLevelsEnabled [] "Asia/Tokyo"
            "Asia" "Japan" "Japan Standard Time" _).
  apply timezoneToInfo_lookup. vm_compute. reflexivity.
Defined.

(** X15. What a resolution writes: one [DEBUG] record describing the
    result when that level is on and the call returns, and nothing in
    any other case. *)
Theorem resolve_console_exact levels timezone out :
  let r := getAllInformationFromTimezone levels timezone out in
  r.2 = (out ++ match r.1 with
                | Return found =>
                    if debug levels then [resolution_record timezone found] else []
                | Throw _ => []
                end)%list.
Proof.
  cbn zeta. unfold getAllInformationFromTimezone, read.
  destruct (timezoneToInfo !! timezone) as [arr|] eqn:H.
  - apply timezoneToInfo_well_formed in H as [_ Hunknown].
    cbn [or_empty_array destructure3]. run.
    rewrite (bool_decide_eq_false_2 _ Hunknown). cbn [andb].
    destruct (debug levels); run; [ reflexivity | by rewrite app_nil_r ].
  - clear H. case_bool_decide; cbn [or_empty_array destructure3]; run.
    + by rewrite app_nil_r.
    + destruct (debug levels); run; [ reflexivity | by rewrite app_nil_r ].
Qed.

(** ** The formatters *)

(** X16. A formatter given a falsy instant or a falsy zone ([null],
    [undefined], the empty string, [0], [false]) returns [null], throws
    nothing and does not reach the date library; the diagnostic is
    written only when the [error] and the [debug] levels are both on. *)
Theorem formatters_reject_falsy_input levels rt utcTime timezone out :
  js_not utcTime = true ∨ js_not timezone = true →
  Forall (λ formatter,
            formatter levels rt utcTime timezone out
            = (Return VNull,
               if error levels && debug levels
               then (out ++ [invalid_input_record])%list else out))
         [formatDay; formatDate; formatTime].
Proof.
  intros Hfalsy.
  assert (js_not utcTime || js_not timezone = true) as Hguard
    by (destruct Hfalsy as [-> | ->]; [ done | by rewrite orb_true_r ]).
  destruct (format_guard levels rt utcTime timezone out Hguard) as (? & ? & ?).
  by repeat constructor.
Qed.

Lemma formatters_reject_falsy_input_witness :
  Forall (λ formatter,
            formatter logLevelsEnabled winter_runtime
              (VStr "2024-12-31T23:00:00Z") (VStr "") []
            = (Return VNull, []))
         [formatDay; formatDate; formatTime].
Proof.
  refine (formatters_reject_falsy_input logLevelsEnabled winter_runtime
            (VStr "2024-12-31T23:00:00Z") (VStr "") [] _).
  right. reflexivity.
Defined.

(** ** The logger *)

Lemma ascii_toUpperCase_idempotent c :
  ascii_toUpperCase (ascii_toUpperCase c) = ascii_toUpperCase c.
Proof. by destruct c as [[] [] [] [] [] [] [] []]. Qed.

Lemma map_toUpperCase_idempotent s :
  map_string ascii_toUpperCase (map_string ascii_toUpperCase s)
  = map_string ascii_toUpperCase s.
Proof.
  induction s as [|c s IH]; [ done | ].
  cbn [map_string]. by rewrite ascii_toUpperCase_idempotent, IH.
Qed.

(** An upper-cased string is none of the inherited names, each of which
    has a small letter. *)
Lemma upper_case_not_inherited s :
  map_string ascii_toUpperCase s ∉ Object_prototype.
Proof.
  intros Hin. pose proof (map_toUpperCase_idempotent s) as Hidem.
  revert Hin Hidem. generalize (map_string ascii_toUpperCase s). intros u Hin.
  revert u Hin.
  apply (proj1 (Forall_forall (λ u, map_string ascii_toUpperCase u ≠ u) _)).
  repeat constructor; vm_compute; discriminate.
Qed.

(** X17. On an ASCII level name [getLogLevelColor] always returns one
    of its five colour codes, never [undefined] and never an inherited
    member; the case of the letters does not matter, and the code is
    white exactly when the name, in capitals, is none of [DEBUG],
    [INFO], [WARN] and [ERROR]. *)
Theorem getLogLevelColor_ascii h logLevel :
  is_ascii logLevel = true →
  ∃ code, getLogLevelColor h logLevel = VStr code
          ∧ code ∈ level_codes
          ∧ (code = white
             ↔ map_string ascii_toUpperCase logLevel ∉ level_names).
Proof.
  intros Hascii. unfold getLogLevelColor, toUpperCase. rewrite Hascii.
  pose proof (upper_case_not_inherited logLevel) as Hproto.
  revert Hproto. generalize (map_string ascii_toUpperCase logLevel). intros u Hproto.
  unfold read_string, read.
  destruct (level_colors !! u) as [code|] eqn:Hlookup.
  - apply elem_of_list_to_map_2 in Hlookup.
    repeat (apply elem_of_cons in Hlookup as [[= -> ->] | Hlookup]);
      [ .. | by apply elem_of_nil in Hlookup ].
    all: eexists; split; [ reflexivity | ].
    all: split; [ apply (bool_decide_unpack _); by vm_compute | ].
    all: split; [ intros [=] | intros Hnot; exfalso; apply Hnot ].
    all: apply (bool_decide_unpack _); by vm_compute.
  - rewrite bool_decide_eq_false_2 by done.
    exists white. split; [ reflexivity | ].
    split; [ apply (bool_decide_unpack _); by vm_compute | ].
    split; [ intros _ | done ].
    intros Hin. clear Hproto. revert u Hin Hlookup.
    apply (proj1 (Forall_forall (λ u, level_colors !! u = None → False) _)).
    repeat constructor; intros Hlookup; vm_compute in Hlookup; discriminate.
Qed.

Lemma getLogLevelColor_ascii_witness :
  ∃ code, getLogLevelColor example_host "Warn" = VStr code
          ∧ code ∈ level_codes
          ∧ (code = white
             ↔ map_string ascii_toUpperCase "Warn" ∉ level_names).
Proof.
  refine (getLogLevelColor_ascii example_host "Warn" _). reflexivity.
Defined.

Lemma append_cons c (a b : string) : String c a +:+ b = String c (a +:+ b).
Proof. reflexivity. Qed.

Lemma append_assoc (a b c : string) : (a +:+ b) +:+ c = a +:+ b +:+ c.
Proof.
  induction a as [|x a IH]; [ done | ]. by rewrite !append_cons, IH.
Qed.

Lemma append_nil_r (a : string) : a +:+ "" = a.
Proof.
  induction a as [|x a IH]; [ done | ]. by rewrite append_cons, IH.
Qed.

Lemma visible_from_plain p rest :
  plain p = true →
  visible_from false (p +:+ rest) = p +:+ visible_from false rest.
Proof.
  unfold plain. induction p as [|c p IH]; [ done | ].
  cbn [list_ascii_of_string forallb]. intros [Hc Hp]%andb_true_iff.
  rewrite !append_cons. cbn [visible_from].
  destruct (bool_decide (c = "027"%char)); [ done | ].
  by rewrite (IH Hp).
Qed.

Lemma visible_from_code_body body rest :
  code_body body = true →
  visible_from true (body +:+ rest) = visible_from false rest.
Proof.
  induction body as [|c body IH]; [ done | ].
  rewrite append_cons. cbn [visible_from].
  destruct body as [|c' body].
  - cbn [code_body]. by intros ->.
  - intros [Hc Hbody]%andb_true_iff. rewrite Hc. by apply IH.
Qed.

Lemma visible_from_color_code code rest :
  color_code code = true →
  visible_from false (code +:+ rest) = visible_from false rest.
Proof.
  destruct code as [|c body]; [ done | ].
  intros [Hc Hbody]%andb_true_iff.
  rewrite append_cons. cbn [visible_from]. rewrite Hc.
  by apply visible_from_code_body.
Qed.

Lemma visible_from_ESC rest :
  visible_from false (ESC +:+ rest) = visible_from true rest.
Proof. reflexivity. Qed.

(** X18. What a terminal shows of a log line once the colour codes are
    taken away: the time, the tag [[SLACK]], the level and the message,
    followed by the additional information when it is truthy, compact or
    indented as [compactLogs] says. *)
Theorem logMessage_text_visible h levels logLevel message additionalInfo :
  is_ascii logLevel = true →
  plain (clock_timestamp h) = true →
  plain logLevel = true →
  plain message = true →
  (∀ indented, plain (JSON_stringify h additionalInfo indented) = true) →
  visible (logMessage_text h levels logLevel message additionalInfo)
  = clock_timestamp h +:+ " [SLACK] " +:+ logLevel +:+ ": " +:+ message
    +:+ (if js_not additionalInfo then ""
         else " | Additional Info: "
              +:+ JSON_stringify h additionalInfo (negb (compactLogs levels))).
Proof.
  intros Hascii Htime Hlevel Hmessage Hjson.
  destruct (getLogLevelColor_ascii h logLevel Hascii) as (code & Hcode & Hin & _).
  assert (color_code code = true) as Hcolor.
  { apply (proj1 (Forall_forall (λ c, color_code c = true) level_codes));
      [ by repeat constructor | exact Hin ]. }
  unfold visible, logMessage_text. cbn zeta. rewrite Hcode. cbn [template].
  assert (JSON_stringify h additionalInfo (negb (compactLogs levels))
          = if compactLogs levels then JSON_stringify h additionalInfo false
            else JSON_stringify h additionalInfo true) as <-
    by by destruct (compactLogs levels).
  destruct (js_not additionalInfo); rewrite ?append_assoc.
  all: repeat first
    [ rewrite visible_from_ESC
    | rewrite visible_from_code_body by reflexivity
    | rewrite visible_from_color_code by exact Hcolor
    | rewrite visible_from_plain by (assumption || apply Hjson || reflexivity) ].
  - rewrite <- (append_nil_r message) at 1.
    rewrite visible_from_plain by assumption. reflexivity.
  - rewrite <- (append_nil_r (JSON_stringify _ _ _)) at 1.
    rewrite visible_from_plain by apply Hjson. cbn [visible_from].
    by rewrite append_nil_r.
Qed.

Lemma logMessage_text_visible_witness :
  visible (logMessage_text example_host logLevelsEnabled "ERROR"
             "Missing required field in Slack notification configuration"
             (VObj ∅))
  = "2025-01-01T00:00:00+01:00 [SLACK] ERROR: Missing required field in Slack notification configuration | Additional Info: {}".
Proof.
  refine (logMessage_text_visible example_host logLevelsEnabled "ERROR"
            "Missing required field in Slack notification configuration"
            (VObj ∅) _ _ _ _ _); reflexivity.
Defined.

(** ** Validation and the console *)

(** X19. A validation only adds to the console, and only [DEBUG] and
    [ERROR] records; one that succeeds adds no [ERROR] record. No call
    writes at the [INFO] or [WARN] level. *)
Theorem validate_console_levels levels n out :
  let r := validateNotificationConfig levels (ValidationState n out) in
  ∃ extra, output r.2 = (out ++ extra)%list
    ∧ Forall (λ rec, log_level rec = "DEBUG" ∨ log_level rec = "ERROR") extra
    ∧ (r.1 = Return tt → Forall (λ rec, log_level rec = "DEBUG") extra).
Proof.
  rewrite validate_run. cbn zeta.
  destruct (first_missing n) as [rf|].
  - cbn [fst snd output]. rewrite <- app_assoc. eexists. split; [ reflexivity | ].
    split; [ | discriminate ].
    destruct (debug levels), (error levels); repeat constructor; by (left + right).
  - destruct (js_not (read_value n "slackiconemo")); cbn [fst snd output];
      rewrite <- app_assoc; eexists; (split; [ reflexivity | ]);
      destruct (debug levels); split; try intros _; repeat constructor; by left.
Qed.
